(** * visionrt-cube-dicom: point and grid classification of the cube phantom

  A shallow embedding of [visionrt-cube-dicom.py]: the scalar tests
  [is_in_sphere] and [is_in_cube], and the vectorised [is_in_sphere_np].

  Numbers.  The script computes on NumPy float64 arrays.  Here every
  coordinate is a real number ([R]): rounding, overflow and NaN are not
  modelled, so each statement below is about the exact-arithmetic reading
  of the script.  [np.linalg.norm] is the real square root of the sum of
  squares of all entries of its argument.

  Arrays.  A one-dimensional array is a [list R]; a two-dimensional array
  is a list of rows; a three-dimensional array is a list of planes.  The
  few NumPy operations the script uses live in [Module np], each with the
  shape behaviour (broadcasting, boolean-mask indexing) NumPy gives it. *)

From Stdlib Require Import Reals Lra Lia List Bool Arith Permutation.
Import ListNotations.
Open Scope R_scope.

(** ** Outcomes of a Python call *)

(** A call either returns a value or stops at the [assert] on its first
  line.  A function whose body can run off its end returns [None] there,
  so its value type is an [option]. *)
Inductive result (A : Type) : Type :=
| Returned (a : A)
| AssertionError.
Arguments Returned {A} a.
Arguments AssertionError {A}.

(** ** Comparisons on reals, as booleans *)

Definition Rleb (x y : R) : bool := if Rle_dec x y then true else false.
Definition Rgtb (x y : R) : bool := if Rgt_dec x y then true else false.

(** ** Python builtins applied to boolean arrays *)

Definition py_any (l : list bool) : bool := existsb (fun b => b) l.
Definition py_all (l : list bool) : bool := forallb (fun b => b) l.

(** [sum] of a boolean array counts its [True] entries. *)
Fixpoint py_sum (l : list bool) : nat :=
match l with
| [] => 0
| b :: l' => ((if b then 1 else 0) + py_sum l')%nat
end.

(** ** The NumPy operations used by the script *)

Module np.

(** Element-wise combination of two arrays of the same length.  NumPy
    raises when the lengths differ (and neither is 1); the script never
    does that, and here the longer array is cut. *)
Fixpoint map2 {A B C : Type} (f : A -> B -> C) (u : list A) (v : list B)
  : list C :=
  match u, v with
  | a :: u', b :: v' => f a b :: map2 f u' v'
  | _, _ => []
  end.

(** [np.abs v] *)
Definition abs (v : list R) : list R := map Rabs v.

(** [v > c] and [v <= c] for an array [v] and a scalar [c]. *)
Definition gt (v : list R) (c : R) : list bool := map (fun x => Rgtb x c) v.
Definition le (v : list R) (c : R) : list bool := map (fun x => Rleb x c) v.

(** [v[m]] for a boolean mask [m] over the first axis of [v]: the entries
    (rows, when [v] is two-dimensional) at which [m] is true, in order.
    In the script [m] always has the length of that axis. *)
Fixpoint mask {A : Type} (v : list A) (m : list bool) : list A :=
  match v, m with
  | a :: v', b :: m' => if b then a :: mask v' m' else mask v' m'
  | _, _ => []
  end.

(** [np.ones((n, 1))]: a column, [n] rows of one entry each. *)
Definition ones_col (n : nat) : list (list R) := repeat [1] n.

(** [c * m] for a scalar [c] and a two-dimensional array [m]. *)
Definition scale (c : R) (m : list (list R)) : list (list R) :=
  map (map (fun e => c * e)) m.

(** [u - v] for two one-dimensional arrays of the same length. *)
Definition sub (u v : list R) : list R := map2 Rminus u v.

(** [v - m] for a one-dimensional [v] of shape [(n,)] and a
    two-dimensional [m].  NumPy aligns trailing axes: [v] is read as one
    row of shape [(1, n)] and repeated against every row of [m]; a row of
    [m] with a single entry is stretched along the row.  So for a column
    [m] of shape [(k, 1)] the result has shape [(k, n)] and entry [(i, j)]
    is [v[j] - m[i][0]].  The script only subtracts columns; a row of
    another length is combined entry by entry. *)
Definition sub_bcast (v : list R) (m : list (list R)) : list (list R) :=
  map (fun row =>
         match row with
         | [o] => map (fun x => x - o) v
         | _ => map2 Rminus v row
         end) m.

(** [x.ravel()] of a two-dimensional array. *)
Definition ravel (m : list (list R)) : list R := concat m.

(** [x.dot(y)] of two one-dimensional arrays. *)
Definition dot (u v : list R) : R := fold_right Rplus 0 (map2 Rmult u v).

(** [np.linalg.norm(x)] with the default arguments, on a one-dimensional
    array and on a two-dimensional one: in both cases NumPy flattens [x]
    and returns [sqrt(x.dot(x))]. *)
Definition norm (v : list R) : R := sqrt (dot v v).
Definition norm2d (m : list (list R)) : R := norm (ravel m).

(** Three-dimensional arrays. *)
Definition volume (A : Type) : Type := list (list (list A)).

Definition vmap {A B : Type} (f : A -> B) (v : volume A) : volume B :=
  map (map (map f)) v.

Definition vmap2 {A B C : Type} (f : A -> B -> C)
  (v : volume A) (w : volume B) : volume C :=
  map2 (map2 (map2 f)) v w.

(** [v[i, j, k]], when the three indices are in range. *)
Definition get {A : Type} (v : volume A) (i j k : nat) : option A :=
  match nth_error v i with
  | Some plane =>
      match nth_error plane j with
      | Some line => nth_error line k
      | None => None
      end
  | None => None
  end.

(** [np.meshgrid(x, y, z, indexing="ij")]: three arrays of shape
    [(len x, len y, len z)] with [XX[i,j,k] = x[i]], [YY[i,j,k] = y[j]]
    and [ZZ[i,j,k] = z[k]]. *)
Definition meshgrid (x y z : list R) : volume R * volume R * volume R :=
  (map (fun xi => map (fun _ => map (fun _ => xi) z) y) x,
   map (fun _ => map (fun yj => map (fun _ => yj) z) y) x,
   map (fun _ => map (fun _ => map (fun zk => zk) z) y) x).

(** [np.zeros(XX.shape, dtype=bool)] *)
Definition zeros_like {A : Type} (v : volume A) : volume bool :=
  vmap (fun _ => false) v.

(** [np.square] *)
Definition square (v : volume R) : volume R := vmap (fun e => e * e) v.

(** [v - c] for a scalar [c], [v + w] and [v <= c] on volumes. *)
Definition vsub (v : volume R) (c : R) : volume R := vmap (fun e => e - c) v.
Definition vadd (v w : volume R) : volume R := vmap2 Rplus v w.
Definition vle (v : volume R) (c : R) : volume bool :=
  vmap (fun e => Rleb e c) v.

(** [np.logical_or(a, b)] *)
Definition logical_or (a b : volume bool) : volume bool := vmap2 orb a b.

(** [np.arange(n)]: the integers [0], [1], ..., [n - 1]. *)
Definition arange (n : nat) : list R := map INR (seq 0 n).

(** [v * c], [v + c] and [v - c] for a one-dimensional array [v] and a
    scalar [c]. *)
Definition smul (v : list R) (c : R) : list R := map (fun e => e * c) v.
Definition sadd (v : list R) (c : R) : list R := map (fun e => e + c) v.
Definition ssub (v : list R) (c : R) : list R := map (fun e => e - c) v.

End np.

(** ** The script *)

(** One row of [sphere_centers], an array of shape [(n, 3)]. *)
Definition center : Type := (R * R * R)%type.

Definition row (c : center) : list R := let '(a, b, d) := c in [a; b; d].

Section Script.

(** The literals the script assigns at module level.  They are section
    variables, so every function below is stated for any values of them;
    the values the script ships are given after the section. *)
Variable cube_half_width : R.
Variable cube_inside_bevel : R.
Variable sphere_diameter : R.
Variable sphere_centers : list center.

(** [bevel_radius = cube_half_width - cube_inside_bevel] *)
Definition bevel_radius : R := cube_half_width - cube_inside_bevel.

(** *** [is_in_sphere] *)

(** The [for origin in sphere_centers] loop with its early [return True];
    [false] is the [return False] after the loop. *)
Fixpoint is_in_sphere_loop (loc : list R) (centers : list center) : bool :=
  match centers with
  | [] => false
  | origin :: rest =>
      let vec := np.sub loc (row origin) in
      let dist := np.norm vec in
      if Rleb dist (sphere_diameter / 2) then true
      else is_in_sphere_loop loc rest
  end.

Definition is_in_sphere (loc : list R) : result bool :=
  if negb (length loc =? 3)%nat then AssertionError
  else Returned (is_in_sphere_loop loc sphere_centers).

(** *** [is_in_cube] *)

(** The tests of the five commented cases, on [loc] after [np.abs]. *)
Definition case1 (loc : list R) : bool :=
  py_any (np.gt loc cube_half_width).
Definition case2 (loc : list R) : bool :=
  py_all (np.le loc cube_inside_bevel).
Definition case3 (loc : list R) : bool :=
  (py_sum (np.gt loc cube_inside_bevel) =? 1)%nat.
Definition case4 (loc : list R) : bool :=
  (py_sum (np.gt loc cube_inside_bevel) =? 2)%nat.
Definition case5 (loc : list R) : bool :=
  (py_sum (np.gt loc cube_inside_bevel) =? 3)%nat.

(** [Returned None] is the end of the body, reached when none of the
    tests holds. *)
Definition is_in_cube (loc : list R) (rounded_edges : bool)
  : result (option bool) :=
  if negb (length loc =? 3)%nat then AssertionError
  else
    let loc := np.abs loc in
    if case1 loc then Returned (Some false)
    else if negb rounded_edges then Returned (Some true)
    else if case2 loc then Returned (Some true)
    else if case3 loc then Returned (Some true)
    else if case4 loc then
      let tf_array := np.gt loc cube_inside_bevel in
      let origin := np.scale cube_inside_bevel (np.ones_col 3) in
      let vec := np.sub_bcast (np.mask loc tf_array) (np.mask origin tf_array) in
      let dist := np.norm2d vec in
      if Rleb dist bevel_radius then Returned (Some true)
      else Returned (Some false)
    else if case5 loc then
      let origin := np.scale cube_inside_bevel (np.ones_col 3) in
      let vec := np.sub_bcast loc origin in
      let dist := np.norm2d vec in
      if Rleb dist bevel_radius then Returned (Some true)
      else Returned (Some false)
    else Returned None.

(** *** [is_in_sphere_np] *)

(** One pass of the loop body: the mask of one sphere, or-ed into the
    accumulator. *)
Definition sphere_step (XX YY ZZ : np.volume R)
  (is_in_sphere_array : np.volume bool) (origin : center) : np.volume bool :=
  let '(o0, o1, o2) := origin in
  let DXX := np.vsub XX o0 in
  let DYY := np.vsub YY o1 in
  let DZZ := np.vsub ZZ o2 in
  let quad_sum :=
    np.vadd (np.vadd (np.square DXX) (np.square DYY)) (np.square DZZ) in
  let is_in_this_sphere := np.vle quad_sum ((sphere_diameter / 2) ^ 2) in
  np.logical_or is_in_this_sphere is_in_sphere_array.

Definition is_in_sphere_np (x y z : list R) : np.volume bool :=
  let '(XX, YY, ZZ) := np.meshgrid x y z in
  let is_in_sphere_array := np.zeros_like XX in
  fold_left (sphere_step XX YY ZZ) sphere_centers is_in_sphere_array.

End Script.

(** ** The values the script ships *)

Definition cube_half_width : R := 75.
Definition cube_inside_bevel : R := 67.
Definition sphere_diameter : R := 7.5.
Definition sphere_centers : list center :=
[(-10, -25, -30); (10, -15, -15); (0, 0, 0); (-20, 20, 10); (20, 30, 20)].


(** ** The sampling grid *)

Section Grid.

(** The literals of the image and slice geometry.  Python's [/] raises
    [ZeroDivisionError] when the matrix size or the number of slices is
    zero; the values below are those of a script that loads, so every
    statement about them takes a positive size. *)
Variable image_matrix_size : nat.
Variable image_physical_size : R.
Variable number_of_slices : nat.
Variable image_physical_length : R.

(** [image_pixel_size = image_physical_size / image_matrix_size] *)
Definition image_pixel_size : R := image_physical_size / INR image_matrix_size.

Definition image_positions : list R :=
  np.ssub
    (np.sadd (np.smul (np.arange image_matrix_size) image_pixel_size)
       (image_pixel_size / 2))
    (image_physical_size / 2).



End Grid.

Definition image_matrix_size : nat := 256.
Definition image_physical_size : R := 200.

(** ** Notions used in the statements *)

(** Changing, or not, the sign of one coordinate. *)
Definition flip (s : bool) (v : R) : R := if s then - v else v.

(** The number of tests that hold, among the tests of a case analysis. *)
Definition holding (tests : list bool) : nat := py_sum tests.

(** How far an absolute coordinate [a] lies beyond the inner bevel
    boundary; zero when it does not. *)
Definition excess (ib a : R) : R := if Rgtb a ib then a - ib else 0.

(** Squared Euclidean distance and Euclidean distance between two points
    of space. *)
Definition sqdist (p q : center) : R :=
  let '(px, py, pz) := p in
  let '(qx, qy, qz) := q in
  (px - qx) * (px - qx) + (py - qy) * (py - qy) + (pz - qz) * (pz - qz).

Definition distance (p q : center) : R := sqrt (sqdist p q).

(** * Properties *)

(** ** Comparisons *)

Lemma Rleb_true (x y : R) : Rleb x y = true <-> x <= y.
Proof.
  unfold Rleb. destruct (Rle_dec x y) as [H | H]; split; intro K;
    try reflexivity; try assumption; try discriminate; contradiction.
Qed.

Lemma Rleb_false (x y : R) : Rleb x y = false <-> y < x.
Proof.
  unfold Rleb. destruct (Rle_dec x y) as [H | H]; split; intro K;
    try reflexivity; try discriminate; lra.
Qed.

Lemma Rgtb_true (x y : R) : Rgtb x y = true <-> y < x.
Proof.
  unfold Rgtb. destruct (Rgt_dec x y) as [H | H]; split; intro K;
    try reflexivity; try discriminate; unfold Rgt in *; lra.
Qed.

Lemma Rgtb_false (x y : R) : Rgtb x y = false <-> x <= y.
Proof.
  unfold Rgtb. destruct (Rgt_dec x y) as [H | H]; split; intro K;
    try reflexivity; try discriminate; unfold Rgt in *; lra.
Qed.

Lemma Rleb_negb_Rgtb (x y : R) : Rleb x y = negb (Rgtb x y).
Proof.
  destruct (Rgtb x y) eqn:E; simpl.
  - apply Rleb_false, Rgtb_true, E.
  - apply Rleb_true, Rgtb_false, E.
Qed.

(** Decide a comparison between two given reals. *)
Ltac cmp :=
  repeat match goal with
    | |- context [Rleb ?a ?b] =>
        first [ replace (Rleb a b) with true
                  by (symmetry; apply Rleb_true; lra)
              | replace (Rleb a b) with false
                  by (symmetry; apply Rleb_false; lra) ]
    | |- context [Rgtb ?a ?b] =>
        first [ replace (Rgtb a b) with true
                  by (symmetry; apply Rgtb_true; lra)
              | replace (Rgtb a b) with false
                  by (symmetry; apply Rgtb_false; lra) ]
    end.

(** ** [is_in_cube] reads its point through [np.abs] only *)

Lemma is_in_cube_abs_only (hw ib : R) (l1 l2 : list R) (re : bool) :
  length l1 = length l2 -> np.abs l1 = np.abs l2 ->
  is_in_cube hw ib l1 re = is_in_cube hw ib l2 re.
Proof.
  intros Hlen Habs. unfold is_in_cube. rewrite Hlen, Habs. reflexivity.
Qed.

Lemma Rabs_flip (s : bool) (v : R) : Rabs (flip s v) = Rabs v.
Proof. destruct s; simpl; [apply Rabs_Ropp | reflexivity]. Qed.

(** C8. For every point [(x, y, z)], either value of [rounded_edges] and
    every choice of coordinates whose sign is changed, [is_in_cube] gives
    the same outcome on the changed point as on the point itself. *)
Theorem is_in_cube_sign_symmetric (hw ib x y z : R) (sx sy sz re : bool) :
  is_in_cube hw ib [flip sx x; flip sy y; flip sz z] re
  = is_in_cube hw ib [x; y; z] re.
Proof.
  apply is_in_cube_abs_only; [reflexivity |].
  unfold np.abs; simpl. now rewrite !Rabs_flip.
Qed.

(** ** The bounding-box test *)

Lemma case1_false_iff (hw x y z : R) :
  case1 hw (np.abs [x; y; z]) = false
  <-> Rmax (Rabs x) (Rmax (Rabs y) (Rabs z)) <= hw.
Proof.
  unfold case1, py_any, np.gt, np.abs; simpl.
  rewrite !orb_false_iff, !Rgtb_false.
  split.
  - intros (Hx & Hy & Hz & _). repeat apply Rmax_lub; assumption.
  - intros H.
    pose proof (Rmax_l (Rabs x) (Rmax (Rabs y) (Rabs z))).
    pose proof (Rmax_r (Rabs x) (Rmax (Rabs y) (Rabs z))).
    pose proof (Rmax_l (Rabs y) (Rabs z)).
    pose proof (Rmax_r (Rabs y) (Rabs z)).
    repeat split; lra.
Qed.

Lemma is_in_cube_sharp (hw ib x y z : R) :
  is_in_cube hw ib [x; y; z] false
  = Returned (Some (negb (case1 hw (np.abs [x; y; z])))).
Proof.
  unfold is_in_cube.
  change (negb (length [x; y; z] =? 3)%nat) with false. cbv iota zeta.
  destruct (case1 hw (np.abs [x; y; z])); reflexivity.
Qed.

(** C5. Without rounded edges, [is_in_cube] returns a boolean for every
    point [(x, y, z)], and that boolean is [True] exactly when
    [max(|x|, |y|, |z|) <= cube_half_width]; the boundary is inside. *)
Theorem is_in_cube_sharp_is_bounding_box (hw ib x y z : R) :
  (is_in_cube hw ib [x; y; z] false = Returned (Some true)
   <-> Rmax (Rabs x) (Rmax (Rabs y) (Rabs z)) <= hw)
  /\ (is_in_cube hw ib [x; y; z] false = Returned (Some false)
      <-> ~ Rmax (Rabs x) (Rmax (Rabs y) (Rabs z)) <= hw).
Proof.
  rewrite is_in_cube_sharp, <- case1_false_iff.
  destruct (case1 hw (np.abs [x; y; z])); simpl; split; split;
    intro H; try reflexivity; try discriminate; try congruence.
Qed.

Lemma case1_negb_Rleb (hw x y z : R) :
  negb (case1 hw (np.abs [x; y; z]))
  = Rleb (Rmax (Rabs x) (Rmax (Rabs y) (Rabs z))) hw.
Proof.
  destruct (case1 hw (np.abs [x; y; z])) eqn:E; simpl; symmetry.
  - apply Rleb_false. apply Rnot_le_lt. intro H.
    apply case1_false_iff in H. congruence.
  - apply Rleb_true, case1_false_iff, E.
Qed.

(** ** Rounded edges *)

(** Open the body of [is_in_cube] on a three-element list. *)
Ltac open_is_in_cube :=
  unfold is_in_cube;
  match goal with
  | |- context [negb (length [?x; ?y; ?z] =? 3)%nat] =>
      change (negb (length [x; y; z] =? 3)%nat) with false;
      change (np.abs [x; y; z]) with [Rabs x; Rabs y; Rabs z]
  end;
  cbv iota zeta.

(** Split on which absolute coordinates exceed the inner bevel boundary. *)
Ltac split_on_bevel ib x y z :=
  unfold case2, case3, case4, case5, py_all, np.le, np.gt, excess;
  cbn [map forallb py_sum];
  rewrite ?(Rleb_negb_Rgtb (Rabs x) ib), ?(Rleb_negb_Rgtb (Rabs y) ib),
    ?(Rleb_negb_Rgtb (Rabs z) ib);
  destruct (Rgtb (Rabs x) ib) eqn:?, (Rgtb (Rabs y) ib) eqn:?,
    (Rgtb (Rabs z) ib) eqn:?;
  cbn [negb andb orb Nat.add Nat.eqb py_sum holding].

Lemma is_in_cube_outside (hw ib x y z : R) (re : bool) :
  case1 hw (np.abs [x; y; z]) = true ->
  is_in_cube hw ib [x; y; z] re = Returned (Some false).
Proof.
  change (np.abs [x; y; z]) with [Rabs x; Rabs y; Rabs z].
  intro H. open_is_in_cube. now rewrite H.
Qed.

(** Inside the bounding box, with rounded edges and at most one absolute
    coordinate beyond the inner bevel boundary, the answer is [True]. *)
Lemma is_in_cube_face_or_interior (hw ib x y z : R) :
  case1 hw (np.abs [x; y; z]) = false ->
  (py_sum (np.gt (np.abs [x; y; z]) ib) <= 1)%nat ->
  is_in_cube hw ib [x; y; z] true = Returned (Some true).
Proof.
  change (np.abs [x; y; z]) with [Rabs x; Rabs y; Rabs z].
  intros H1 Hk. open_is_in_cube. rewrite H1. cbn [negb].
  revert Hk. split_on_bevel ib x y z; intro Hk; try reflexivity; lia.
Qed.

(** Inside the bounding box, with rounded edges and [k >= 2] absolute
    coordinates beyond the inner bevel boundary, the norm the script
    compares with [bevel_radius] is that of the broadcast [k] by [k] array:
    [sqrt (k * d2)], where [d2] is the squared distance of the
    over-threshold coordinates from the bevel centre. *)
Lemma is_in_cube_rounded_region (hw ib x y z : R) :
  case1 hw (np.abs [x; y; z]) = false ->
  (2 <= py_sum (np.gt (np.abs [x; y; z]) ib))%nat ->
  is_in_cube hw ib [x; y; z] true
  = Returned (Some (Rleb
      (sqrt (INR (py_sum (np.gt (np.abs [x; y; z]) ib))
             * (excess ib (Rabs x) * excess ib (Rabs x)
                + excess ib (Rabs y) * excess ib (Rabs y)
                + excess ib (Rabs z) * excess ib (Rabs z))))
      (bevel_radius hw ib))).
Proof.
  change (np.abs [x; y; z]) with [Rabs x; Rabs y; Rabs z].
  intros H1 Hk. open_is_in_cube. rewrite H1. cbn [negb].
  revert Hk. split_on_bevel ib x y z; intro Hk; try lia;
    unfold np.norm2d, np.norm, np.dot, np.ravel, np.sub_bcast, np.scale,
      np.ones_col;
    cbn [repeat map np.mask concat app np.map2 fold_right INR];
    match goal with
    | |- (if Rleb (sqrt ?s) _ then _ else _) = Returned (Some (Rleb (sqrt ?t) _)) =>
        replace s with t by ring
    end;
    destruct (Rleb _ _); reflexivity.
Qed.

(** C10. For every point [(x, y, z)] and either value of [rounded_edges],
    [is_in_cube] returns a boolean: the end of its body is never reached.
    The tests of cases 2 to 5 split the points four ways (exactly one of
    them holds), and, read in the order of the body, exactly one of the
    five cases applies. *)
Theorem is_in_cube_cases_exhaustive (hw ib x y z : R) (re : bool) :
  (exists b : bool, is_in_cube hw ib [x; y; z] re = Returned (Some b))
  /\ holding [case2 ib (np.abs [x; y; z]); case3 ib (np.abs [x; y; z]);
              case4 ib (np.abs [x; y; z]); case5 ib (np.abs [x; y; z])]
     = 1%nat
  /\ holding [case1 hw (np.abs [x; y; z]);
              negb (case1 hw (np.abs [x; y; z])) && case2 ib (np.abs [x; y; z]);
              negb (case1 hw (np.abs [x; y; z])) && case3 ib (np.abs [x; y; z]);
              negb (case1 hw (np.abs [x; y; z])) && case4 ib (np.abs [x; y; z]);
              negb (case1 hw (np.abs [x; y; z])) && case5 ib (np.abs [x; y; z])]
     = 1%nat.
Proof.
  assert (Hfour :
    holding [case2 ib (np.abs [x; y; z]); case3 ib (np.abs [x; y; z]);
             case4 ib (np.abs [x; y; z]); case5 ib (np.abs [x; y; z])]
    = 1%nat).
  { change (np.abs [x; y; z]) with [Rabs x; Rabs y; Rabs z].
    split_on_bevel ib x y z; reflexivity. }
  split; [| split; [exact Hfour |]].
  - destruct (case1 hw (np.abs [x; y; z])) eqn:H1.
    + exists false. now apply is_in_cube_outside.
    + destruct re.
      * destruct (le_lt_dec (py_sum (np.gt (np.abs [x; y; z]) ib)) 1) as [Hk | Hk].
        -- exists true. now apply is_in_cube_face_or_interior.
        -- eexists. apply is_in_cube_rounded_region; [exact H1 | lia].
      * exists true. rewrite is_in_cube_sharp, H1. reflexivity.
  - revert Hfour. unfold holding.
    destruct (case1 hw (np.abs [x; y; z])); cbn [negb andb py_sum].
    + reflexivity.
    + intro Hfour. exact Hfour.
Qed.

(** C6. If [is_in_cube] answers [True] for a point with rounded edges, it
    answers [True] for that point without them.  This holds for all values
    of the two cube parameters, whatever the sign of [bevel_radius]. *)
Theorem rounding_only_removes_volume (hw ib x y z : R) :
  is_in_cube hw ib [x; y; z] true = Returned (Some true) ->
  is_in_cube hw ib [x; y; z] false = Returned (Some true).
Proof.
  intro H. rewrite is_in_cube_sharp.
  destruct (case1 hw (np.abs [x; y; z])) eqn:H1; [| reflexivity].
  rewrite (is_in_cube_outside hw ib x y z true H1) in H. discriminate H.
Qed.

(** ** Evaluation at given points *)

(** Absolute values of given reals. *)
Ltac abs_num :=
  repeat match goal with
    | |- context [Rabs ?a] =>
        first [ rewrite (Rabs_pos_eq a) by lra
              | rewrite (Rabs_left1 a) by lra ]
    end.

(** Settle a side condition on the tests of a given point. *)
Ltac tests_num :=
  unfold case1, py_any, np.gt, np.abs, cube_half_width, cube_inside_bevel;
  cbn [map existsb py_sum orb];
  abs_num; cmp; cbn [orb Nat.add]; first [reflexivity | lia].

Lemma sqrt_le_iff (s r : R) : 0 <= s -> 0 <= r -> (sqrt s <= r <-> s <= r * r).
Proof.
  intros Hs Hr. pose proof (sqrt_pos s) as Hp.
  pose proof (sqrt_sqrt s Hs) as Hq. split; intro H.
  - nra.
  - destruct (Rle_dec (sqrt s) r) as [Hle | Hgt]; [exact Hle |].
    apply Rnot_le_lt in Hgt. nra.
Qed.

Lemma Rleb_sqrt (s r : R) : 0 <= s -> 0 <= r -> Rleb (sqrt s) r = Rleb s (r * r).
Proof.
  intros Hs Hr. destruct (Rleb s (r * r)) eqn:E.
  - apply Rleb_true, sqrt_le_iff; [assumption .. |]. apply Rleb_true, E.
  - apply Rleb_false. apply Rleb_false in E.
    apply Rnot_le_lt. intro H. apply sqrt_le_iff in H; lra.
Qed.

(** Evaluate [is_in_cube] with rounded edges at a given point of an edge
    or corner region of the shipped cube. *)
Ltac region_num :=
  rewrite is_in_cube_rounded_region; [| tests_num ..];
  unfold excess, np.gt, np.abs, bevel_radius, cube_half_width,
    cube_inside_bevel;
  cbn [map py_sum]; abs_num; cmp; cbn [Nat.add INR];
  rewrite Rleb_sqrt by lra; cmp; reflexivity.

(** C4. With the shipped parameters (half-width 75, inner bevel boundary
    67, bevel radius 8) and rounded edges, [is_in_cube] returns [False] at
    [(72, 72, 72)], and it returns [False] at [(70, 70, 70)] as well: there
    the script compares with 8 the norm 9 of the 3 by 3 broadcast array,
    not the distance [sqrt 27] to the bevel centre. *)
Theorem corner_points_72_and_70 :
  bevel_radius cube_half_width cube_inside_bevel = 8
  /\ is_in_cube cube_half_width cube_inside_bevel [72; 72; 72] true
     = Returned (Some false)
  /\ is_in_cube cube_half_width cube_inside_bevel [70; 70; 70] true
     = Returned (Some false).
Proof.
  split; [unfold bevel_radius, cube_half_width, cube_inside_bevel; lra |].
  split; region_num.
Qed.

(** C2 (the script departs from it).  The point [(71, 71, 71)] lies in the
    bounding box of the shipped cube with all three absolute coordinates
    beyond the inner bevel boundary, and its distance to the bevel centre
    [(67, 67, 67)] is at most [bevel_radius]; [is_in_cube] with rounded
    edges returns [False] there. *)
Theorem corner_test_rejects_point_within_radius :
  case1 cube_half_width (np.abs [71; 71; 71]) = false
  /\ py_sum (np.gt (np.abs [71; 71; 71]) cube_inside_bevel) = 3%nat
  /\ np.norm (np.sub (np.abs [71; 71; 71])
                [cube_inside_bevel; cube_inside_bevel; cube_inside_bevel])
     <= bevel_radius cube_half_width cube_inside_bevel
  /\ is_in_cube cube_half_width cube_inside_bevel [71; 71; 71] true
     = Returned (Some false).
Proof.
  split; [tests_num |]. split; [tests_num |]. split; [| region_num].
  unfold np.norm, np.dot, np.sub, np.abs, bevel_radius, cube_half_width,
    cube_inside_bevel.
  cbn [map np.map2 fold_right]. abs_num.
  apply sqrt_le_iff; lra.
Qed.

(** C3 (the script departs from it).  The point [(72, 72, 0)] lies in the
    bounding box of the shipped cube with exactly two absolute coordinates
    beyond the inner bevel boundary, and the norm of the vector from
    [(67, 67)] to those two coordinates is at most [bevel_radius];
    [is_in_cube] with rounded edges returns [False] there. *)
Theorem edge_test_rejects_point_within_radius :
  case1 cube_half_width (np.abs [72; 72; 0]) = false
  /\ py_sum (np.gt (np.abs [72; 72; 0]) cube_inside_bevel) = 2%nat
  /\ np.norm
       (np.sub
          (np.mask (np.abs [72; 72; 0])
             (np.gt (np.abs [72; 72; 0]) cube_inside_bevel))
          (np.mask [cube_inside_bevel; cube_inside_bevel; cube_inside_bevel]
             (np.gt (np.abs [72; 72; 0]) cube_inside_bevel)))
     <= bevel_radius cube_half_width cube_inside_bevel
  /\ is_in_cube cube_half_width cube_inside_bevel [72; 72; 0] true
     = Returned (Some false).
Proof.
  split; [tests_num |]. split; [tests_num |]. split; [| region_num].
  unfold np.norm, np.dot, np.sub, np.abs, np.gt, bevel_radius,
    cube_half_width, cube_inside_bevel.
  cbn [map]. abs_num. cmp. cbn [np.mask np.map2 map fold_right].
  apply sqrt_le_iff; lra.
Qed.

(** ** Parameters with the inner bevel boundary beyond the half-width *)

(** C9 (as stated, it fails).  With half-width 67 and inner bevel boundary
    75 the script computes the bevel radius [-8] and [is_in_cube] classifies
    the origin. *)
Lemma degenerate_parameters_are_accepted :
  75 > 67
  /\ bevel_radius 67 75 = -8
  /\ is_in_cube 67 75 [0; 0; 0] true = Returned (Some true).
Proof.
  split; [lra |]. split; [unfold bevel_radius; lra |].
  apply is_in_cube_face_or_interior;
    unfold case1, py_any, np.gt, np.abs; cbn [map existsb py_sum];
    abs_num; cmp; cbn [orb Nat.add]; [reflexivity | lia].
Qed.

(** C9, amended.  When the inner bevel boundary exceeds the half-width, the
    bevel radius is negative, and [is_in_cube] still returns a boolean for
    every point and either value of [rounded_edges]: [True] exactly when
    [max(|x|, |y|, |z|) <= cube_half_width]. *)
Theorem degenerate_parameters_classify (hw ib x y z : R) (re : bool) :
  hw < ib ->
  bevel_radius hw ib < 0
  /\ is_in_cube hw ib [x; y; z] re
     = Returned (Some (Rleb (Rmax (Rabs x) (Rmax (Rabs y) (Rabs z))) hw)).
Proof.
  intro Hd. split; [unfold bevel_radius; lra |].
  rewrite <- case1_negb_Rleb.
  destruct (case1 hw (np.abs [x; y; z])) eqn:H1.
  - now apply is_in_cube_outside.
  - destruct re; [| rewrite is_in_cube_sharp, H1; reflexivity].
    apply is_in_cube_face_or_interior; [exact H1 |].
    apply case1_false_iff in H1.
    pose proof (Rmax_l (Rabs x) (Rmax (Rabs y) (Rabs z))).
    pose proof (Rmax_r (Rabs x) (Rmax (Rabs y) (Rabs z))).
    pose proof (Rmax_l (Rabs y) (Rabs z)).
    pose proof (Rmax_r (Rabs y) (Rabs z)).
    unfold np.gt, np.abs. cbn [map py_sum].
    replace (Rgtb (Rabs x) ib) with false
      by (symmetry; apply Rgtb_false; lra).
    replace (Rgtb (Rabs y) ib) with false
      by (symmetry; apply Rgtb_false; lra).
    replace (Rgtb (Rabs z) ib) with false
      by (symmetry; apply Rgtb_false; lra).
    cbn [Nat.add]. lia.
Qed.

(** ** [is_in_sphere] *)

Lemma sqdist_nonneg (p q : center) : 0 <= sqdist p q.
Proof.
  destruct p as [[px py] pz], q as [[qx qy] qz]. unfold sqdist.
  repeat apply Rplus_le_le_0_compat; apply Rle_0_sqr.
Qed.

Lemma norm_sub_row (x y z : R) (c : center) :
  np.norm (np.sub [x; y; z] (row c)) = distance (x, y, z) c.
Proof.
  destruct c as [[cx cy] cz].
  unfold np.norm, np.dot, np.sub, distance, sqdist, row.
  cbn [np.map2 fold_right]. f_equal. ring.
Qed.

(** The loop is a search for a sphere that contains the point. *)
Lemma is_in_sphere_loop_existsb (d x y z : R) (cs : list center) :
  is_in_sphere_loop d [x; y; z] cs
  = existsb (fun c => Rleb (distance (x, y, z) c) (d / 2)) cs.
Proof.
  induction cs as [| c cs IH]; [reflexivity |].
  cbn [is_in_sphere_loop existsb]. rewrite norm_sub_row, IH.
  destruct (Rleb (distance (x, y, z) c) (d / 2)); reflexivity.
Qed.

Lemma is_in_sphere_three (d : R) (cs : list center) (x y z : R) :
  is_in_sphere d cs [x; y; z]
  = Returned (existsb (fun c => Rleb (distance (x, y, z) c) (d / 2)) cs).
Proof.
  unfold is_in_sphere.
  change (negb (length [x; y; z] =? 3)%nat) with false. cbv iota.
  now rewrite is_in_sphere_loop_existsb.
Qed.

(** C7. For every point [(x, y, z)], [is_in_sphere] returns [True] exactly
    when some configured sphere has its centre at Euclidean distance at
    most [sphere_diameter / 2] from the point (a point at exactly that
    distance is inside), and it returns [False] exactly when no sphere
    has. *)
Theorem is_in_sphere_iff_some_sphere_contains
  (d : R) (cs : list center) (x y z : R) :
  (is_in_sphere d cs [x; y; z] = Returned true
   <-> exists c : center, In c cs /\ distance (x, y, z) c <= d / 2)
  /\ (is_in_sphere d cs [x; y; z] = Returned false
      <-> ~ exists c : center, In c cs /\ distance (x, y, z) c <= d / 2).
Proof.
  rewrite is_in_sphere_three.
  assert (Hex :
    existsb (fun c => Rleb (distance (x, y, z) c) (d / 2)) cs = true
    <-> exists c : center, In c cs /\ distance (x, y, z) c <= d / 2).
  { rewrite existsb_exists. split; intros (c & Hin & Hc); exists c;
      (split; [exact Hin | apply Rleb_true, Hc]). }
  destruct (existsb _ cs); split; split; intro H;
    try reflexivity; try discriminate.
  - apply Hex. reflexivity.
  - exfalso. apply H, Hex. reflexivity.
  - apply Hex in H. discriminate.
  - intro K. apply Hex in K. discriminate.
Qed.

(** ** [is_in_sphere_np] *)

Lemma nth_error_map2 {A B C : Type} (f : A -> B -> C)
  (u : list A) (v : list B) (n : nat) :
  nth_error (np.map2 f u v) n
  = match nth_error u n, nth_error v n with
    | Some a, Some b => Some (f a b)
    | _, _ => None
    end.
Proof.
  revert v n. induction u as [| a u IH]; intros v n.
  - destruct n; reflexivity.
  - destruct v as [| b v].
    + destruct n; cbn; [reflexivity |]. now destruct (nth_error u n).
    + destruct n; cbn; [reflexivity | apply IH].
Qed.

Lemma get_vmap {A B : Type} (f : A -> B) (v : np.volume A) (i j k : nat) :
  np.get (np.vmap f v) i j k = option_map f (np.get v i j k).
Proof.
  unfold np.get, np.vmap. rewrite nth_error_map.
  destruct (nth_error v i) as [plane |]; cbn; [| reflexivity].
  rewrite nth_error_map.
  destruct (nth_error plane j) as [line |]; cbn; [| reflexivity].
  apply nth_error_map.
Qed.

Lemma get_vmap2 {A B C : Type} (f : A -> B -> C)
  (v : np.volume A) (w : np.volume B) (i j k : nat) :
  np.get (np.vmap2 f v w) i j k
  = match np.get v i j k, np.get w i j k with
    | Some a, Some b => Some (f a b)
    | _, _ => None
    end.
Proof.
  unfold np.get, np.vmap2. rewrite nth_error_map2.
  destruct (nth_error v i) as [pv |]; [| reflexivity].
  destruct (nth_error w i) as [pw |].
  - rewrite nth_error_map2.
    destruct (nth_error pv j) as [lv |]; [| reflexivity].
    destruct (nth_error pw j) as [lw |].
    + apply nth_error_map2.
    + now destruct (nth_error lv k).
  - destruct (nth_error pv j) as [lv |]; [| reflexivity].
    now destruct (nth_error lv k).
Qed.

Lemma get_meshgrid (x y z : list R) (i j k : nat) (xi yj zk : R) :
  nth_error x i = Some xi -> nth_error y j = Some yj ->
  nth_error z k = Some zk ->
  np.get (fst (fst (np.meshgrid x y z))) i j k = Some xi
  /\ np.get (snd (fst (np.meshgrid x y z))) i j k = Some yj
  /\ np.get (snd (np.meshgrid x y z)) i j k = Some zk.
Proof.
  intros Hx Hy Hz. unfold np.meshgrid, np.get. cbn [fst snd].
  rewrite !nth_error_map, Hx. cbn [option_map].
  rewrite !nth_error_map, Hy. cbn [option_map].
  rewrite !nth_error_map, Hz. cbn [option_map].
  repeat split; reflexivity.
Qed.

(** One pass of the loop at one grid point. *)
Lemma get_sphere_step (d : R) (XX YY ZZ : np.volume R) (acc : np.volume bool)
  (c : center) (i j k : nat) (xi yj zk : R) (b : bool) :
  np.get XX i j k = Some xi -> np.get YY i j k = Some yj ->
  np.get ZZ i j k = Some zk -> np.get acc i j k = Some b ->
  np.get (sphere_step d XX YY ZZ acc c) i j k
  = Some (Rleb (sqdist (xi, yj, zk) c) ((d / 2) ^ 2) || b).
Proof.
  intros HX HY HZ Hacc. destruct c as [[o0 o1] o2].
  unfold sphere_step, np.logical_or, np.vle, np.vadd, np.square, np.vsub.
  rewrite get_vmap2, get_vmap, !get_vmap2, !get_vmap, HX, HY, HZ, Hacc.
  reflexivity.
Qed.

(** The whole loop at one grid point. *)
Lemma get_sphere_loop (d : R) (XX YY ZZ : np.volume R) (cs : list center)
  (i j k : nat) (xi yj zk : R) :
  np.get XX i j k = Some xi -> np.get YY i j k = Some yj ->
  np.get ZZ i j k = Some zk ->
  forall (acc : np.volume bool) (b : bool),
    np.get acc i j k = Some b ->
    np.get (fold_left (sphere_step d XX YY ZZ) cs acc) i j k
    = Some (b || existsb
                   (fun c => Rleb (sqdist (xi, yj, zk) c) ((d / 2) ^ 2)) cs).
Proof.
  intros HX HY HZ. induction cs as [| c cs IH]; intros acc b Hacc.
  - cbn. now rewrite orb_false_r.
  - cbn [fold_left existsb].
    rewrite (IH _ _ (get_sphere_step d XX YY ZZ acc c i j k xi yj zk b
                       HX HY HZ Hacc)).
    f_equal. destruct b, (Rleb (sqdist (xi, yj, zk) c) ((d / 2) ^ 2));
      reflexivity.
Qed.

Lemma is_in_sphere_np_get (d : R) (cs : list center) (x y z : list R)
  (i j k : nat) (xi yj zk : R) :
  nth_error x i = Some xi -> nth_error y j = Some yj ->
  nth_error z k = Some zk ->
  np.get (is_in_sphere_np d cs x y z) i j k
  = Some (existsb (fun c => Rleb (sqdist (xi, yj, zk) c) ((d / 2) ^ 2)) cs).
Proof.
  intros Hx Hy Hz.
  destruct (get_meshgrid x y z i j k xi yj zk Hx Hy Hz) as (HX & HY & HZ).
  unfold is_in_sphere_np.
  destruct (np.meshgrid x y z) as [[XX YY] ZZ]. cbn [fst snd] in HX, HY, HZ.
  rewrite (get_sphere_loop d XX YY ZZ cs i j k xi yj zk HX HY HZ _ false).
  - reflexivity.
  - unfold np.zeros_like. now rewrite get_vmap, HX.
Qed.

(** For a non-negative diameter the squared test and the test on the norm
    agree at every grid point, for any list of centres. *)
Lemma sphere_paths_agree (d : R) (cs : list center) (x y z : list R)
  (i j k : nat) (xi yj zk : R) :
  0 <= d ->
  nth_error x i = Some xi -> nth_error y j = Some yj ->
  nth_error z k = Some zk ->
  option_map Returned (np.get (is_in_sphere_np d cs x y z) i j k)
  = Some (is_in_sphere d cs [xi; yj; zk]).
Proof.
  intros Hd Hx Hy Hz.
  rewrite (is_in_sphere_np_get d cs x y z i j k xi yj zk Hx Hy Hz).
  rewrite is_in_sphere_three. cbn [option_map]. do 2 f_equal.
  induction cs as [| c cs IH]; [reflexivity |].
  cbn [existsb]. rewrite IH. f_equal.
  unfold distance. rewrite Rleb_sqrt by (try apply sqdist_nonneg; lra).
  f_equal. ring.
Qed.

(** C1. For the shipped spheres, all coordinate sequences [x], [y], [z]
    and all indices [i < len x], [j < len y], [k < len z], entry
    [(i, j, k)] of [is_in_sphere_np x y z] exists and equals the value
    [is_in_sphere] returns for the point [(x[i], y[j], z[k])]. *)
Theorem sphere_mask_agrees_with_scalar_test (x y z : list R) (i j k : nat) :
  (i < length x)%nat -> (j < length y)%nat -> (k < length z)%nat ->
  option_map Returned
    (np.get (is_in_sphere_np sphere_diameter sphere_centers x y z) i j k)
  = Some (is_in_sphere sphere_diameter sphere_centers
            [nth i x 0; nth j y 0; nth k z 0]).
Proof.
  intros Hi Hj Hk. apply sphere_paths_agree.
  - unfold sphere_diameter. lra.
  - now apply nth_error_nth'.
  - now apply nth_error_nth'.
  - now apply nth_error_nth'.
Qed.

(** ** Instances *)

(** The two points of the edge region that the shipped cube is tested on:
    [(70, 70, 0)] is inside and [(75, 75, 0)] is outside. *)
Example edge_points_70_and_75 :
  is_in_cube cube_half_width cube_inside_bevel [70; 70; 0] true
  = Returned (Some true)
  /\ is_in_cube cube_half_width cube_inside_bevel [75; 75; 0] true
     = Returned (Some false).
Proof. split; region_num. Qed.

Lemma origin_is_in_shipped_cube :
  is_in_cube cube_half_width cube_inside_bevel [0; 0; 0] true
  = Returned (Some true).
Proof. apply is_in_cube_face_or_interior; tests_num. Defined.

(** C1 at the grid [x = [0, 10]], [y = [0]], [z = [0]], entry [(1, 0, 0)]. *)
Lemma sphere_mask_agrees_at_a_grid_point :
  lt 1 (length [0; 10]) /\ lt 0 (length [0]) /\ lt 0 (length [0])
  /\ option_map Returned
       (np.get (is_in_sphere_np sphere_diameter sphere_centers [0; 10] [0] [0])
          1 0 0)
     = Some (is_in_sphere sphere_diameter sphere_centers
               [nth 1 [0; 10] 0; nth 0 [0] 0; nth 0 [0] 0]).
Proof.
  split; [cbn; lia |]. split; [cbn; lia |]. split; [cbn; lia |].
  apply (sphere_mask_agrees_with_scalar_test [0; 10] [0] [0] 1 0 0);
    cbn; lia.
Defined.

(** C6 at the origin, for the shipped cube. *)
Lemma rounding_only_removes_volume_at_origin :
  is_in_cube cube_half_width cube_inside_bevel [0; 0; 0] true
  = Returned (Some true)
  /\ is_in_cube cube_half_width cube_inside_bevel [0; 0; 0] false
     = Returned (Some true).
Proof.
  split; [exact origin_is_in_shipped_cube |].
  apply (rounding_only_removes_volume cube_half_width cube_inside_bevel 0 0 0).
  exact origin_is_in_shipped_cube.
Defined.

(** C9, amended, at half-width 67, inner bevel boundary 75 and the
    origin. *)
Lemma degenerate_parameters_classify_origin :
  67 < 75
  /\ bevel_radius 67 75 < 0
  /\ is_in_cube 67 75 [0; 0; 0] true
     = Returned (Some (Rleb (Rmax (Rabs 0) (Rmax (Rabs 0) (Rabs 0))) 67)).
Proof.
  split; [lra |].
  apply (degenerate_parameters_classify 67 75 0 0 0 true). lra.
Defined.

(** * Further properties of the script *)

(** ** The length check of the scalar tests *)

(** A point that does not have exactly three coordinates stops both scalar
    tests at their [assert]. *)
Theorem scalar_tests_reject_other_lengths
  (hw ib d : R) (cs : list center) (loc : list R) (re : bool) :
  length loc <> 3%nat ->
  is_in_cube hw ib loc re = AssertionError
  /\ is_in_sphere d cs loc = AssertionError.
Proof.
  intro H. unfold is_in_cube, is_in_sphere.
  destruct (Nat.eqb_spec (length loc) 3) as [E | E]; [contradiction |].
  split; reflexivity.
Qed.

Lemma scalar_tests_reject_a_pair :
  length [1; 2] <> 3%nat
  /\ is_in_cube cube_half_width cube_inside_bevel [1; 2] true = AssertionError
  /\ is_in_sphere sphere_diameter sphere_centers [1; 2] = AssertionError.
Proof.
  split; [cbn; lia |].
  apply (scalar_tests_reject_other_lengths cube_half_width cube_inside_bevel
           sphere_diameter sphere_centers [1; 2] true).
  cbn; lia.
Defined.

(** ** [is_in_cube] in closed form *)

Lemma case1_false_abs (hw x y z : R) :
  case1 hw (np.abs [x; y; z]) = false
  <-> Rabs x <= hw /\ Rabs y <= hw /\ Rabs z <= hw.
Proof.
  unfold case1, py_any, np.gt, np.abs; cbn [map existsb].
  rewrite !orb_false_iff, !Rgtb_false. tauto.
Qed.

Lemma sqrt_le_iff_nonneg (s r : R) :
  0 <= s -> (sqrt s <= r <-> 0 <= r /\ s <= r * r).
Proof.
  intro Hs. pose proof (sqrt_pos s) as Hp. split.
  - intro H. assert (Hr : 0 <= r) by lra.
    split; [exact Hr |]. now apply sqrt_le_iff.
  - intros [Hr H]. now apply sqrt_le_iff.
Qed.

Lemma excess_nonneg (ib a : R) : 0 <= excess ib a.
Proof.
  unfold excess. destruct (Rgtb a ib) eqn:E; [| lra].
  apply Rgtb_true in E. lra.
Qed.

(** The sum of squares the edge and corner tests are about. *)
Lemma excess_squares_nonneg (ib a b c : R) :
  0 <= excess ib a * excess ib a + excess ib b * excess ib b
       + excess ib c * excess ib c.
Proof. repeat apply Rplus_le_le_0_compat; apply Rle_0_sqr. Qed.

(** With rounded edges the answer is one boolean expression in the
    absolute coordinates. *)
Lemma is_in_cube_rounded_form (hw ib x y z : R) :
  is_in_cube hw ib [x; y; z] true
  = Returned (Some
      (negb (case1 hw (np.abs [x; y; z]))
       && ((py_sum (np.gt (np.abs [x; y; z]) ib) <=? 1)%nat
           || Rleb
                (sqrt (INR (py_sum (np.gt (np.abs [x; y; z]) ib))
                       * (excess ib (Rabs x) * excess ib (Rabs x)
                          + excess ib (Rabs y) * excess ib (Rabs y)
                          + excess ib (Rabs z) * excess ib (Rabs z))))
                (bevel_radius hw ib)))).
Proof.
  destruct (case1 hw (np.abs [x; y; z])) eqn:H1.
  - now apply is_in_cube_outside.
  - cbn [negb andb].
    destruct (Nat.leb_spec (py_sum (np.gt (np.abs [x; y; z]) ib)) 1) as [Hk | Hk].
    + cbn [orb]. now apply is_in_cube_face_or_interior.
    + cbn [orb]. apply is_in_cube_rounded_region; [exact H1 | lia].
Qed.

(** ** The regions of the cube *)

(** A point with an absolute coordinate beyond the half-width is outside,
    with or without rounded edges. *)
Theorem is_in_cube_false_outside_box (hw ib x y z : R) (re : bool) :
  hw < Rmax (Rabs x) (Rmax (Rabs y) (Rabs z)) ->
  is_in_cube hw ib [x; y; z] re = Returned (Some false).
Proof.
  intro H. apply is_in_cube_outside.
  destruct (case1 hw (np.abs [x; y; z])) eqn:E; [reflexivity |].
  apply case1_false_iff in E. lra.
Qed.

Lemma is_in_cube_false_at_80 :
  cube_half_width < Rmax (Rabs 80) (Rmax (Rabs 0) (Rabs 0))
  /\ is_in_cube cube_half_width cube_inside_bevel [80; 0; 0] false
     = Returned (Some false).
Proof.
  assert (H : cube_half_width < Rmax (Rabs 80) (Rmax (Rabs 0) (Rabs 0))).
  { unfold cube_half_width. eapply Rlt_le_trans; [| apply Rmax_l].
    rewrite Rabs_pos_eq; lra. }
  split; [exact H |].
  exact (is_in_cube_false_outside_box cube_half_width cube_inside_bevel
           80 0 0 false H).
Defined.

(** A point of the bounding box with at most one absolute coordinate
    beyond the inner bevel boundary (the interior and the six face
    regions) is inside, with or without rounded edges. *)
Theorem is_in_cube_true_on_interior_and_faces (hw ib x y z : R) (re : bool) :
  Rmax (Rabs x) (Rmax (Rabs y) (Rabs z)) <= hw ->
  (py_sum (np.gt (np.abs [x; y; z]) ib) <= 1)%nat ->
  is_in_cube hw ib [x; y; z] re = Returned (Some true).
Proof.
  intros Hbox Hk. apply case1_false_iff in Hbox. destruct re.
  - now apply is_in_cube_face_or_interior.
  - rewrite is_in_cube_sharp, Hbox. reflexivity.
Qed.

Lemma is_in_cube_true_on_a_face :
  Rmax (Rabs 70) (Rmax (Rabs 0) (Rabs 0)) <= cube_half_width
  /\ (py_sum (np.gt (np.abs [70; 0; 0]%R) cube_inside_bevel) <= 1)%nat
  /\ is_in_cube cube_half_width cube_inside_bevel [70; 0; 0] true
     = Returned (Some true).
Proof.
  assert (Hbox : Rmax (Rabs 70) (Rmax (Rabs 0) (Rabs 0)) <= cube_half_width).
  { unfold cube_half_width. repeat apply Rmax_lub; rewrite Rabs_pos_eq; lra. }
  assert (Hk : (py_sum (np.gt (np.abs [70; 0; 0]%R) cube_inside_bevel) <= 1)%nat).
  { tests_num. }
  split; [exact Hbox |]. split; [exact Hk |].
  exact (is_in_cube_true_on_interior_and_faces cube_half_width
           cube_inside_bevel 70 0 0 true Hbox Hk).
Defined.

(** In the edge and corner regions (the bounding box, [k >= 2] absolute
    coordinates beyond the inner bevel boundary) the answer with rounded
    edges is [True] exactly when the bevel radius is non-negative and [k]
    times the squared distance of the over-threshold coordinates from the
    bevel centre is at most the squared bevel radius. *)
Theorem is_in_cube_edge_and_corner_test (hw ib x y z : R) :
  Rmax (Rabs x) (Rmax (Rabs y) (Rabs z)) <= hw ->
  (2 <= py_sum (np.gt (np.abs [x; y; z]) ib))%nat ->
  (is_in_cube hw ib [x; y; z] true = Returned (Some true)
   <-> 0 <= bevel_radius hw ib
       /\ INR (py_sum (np.gt (np.abs [x; y; z]) ib))
          * (excess ib (Rabs x) * excess ib (Rabs x)
             + excess ib (Rabs y) * excess ib (Rabs y)
             + excess ib (Rabs z) * excess ib (Rabs z))
          <= bevel_radius hw ib * bevel_radius hw ib).
Proof.
  intros Hbox Hk. apply case1_false_iff in Hbox.
  rewrite (is_in_cube_rounded_region hw ib x y z Hbox Hk).
  rewrite <- sqrt_le_iff_nonneg.
  - rewrite <- Rleb_true. split; intro H; [now inversion H | now rewrite H].
  - apply Rmult_le_pos; [apply pos_INR | apply excess_squares_nonneg].
Qed.

Lemma is_in_cube_edge_test_at_70 :
  Rmax (Rabs 70) (Rmax (Rabs 70) (Rabs 0)) <= cube_half_width
  /\ (2 <= py_sum (np.gt (np.abs [70; 70; 0]%R) cube_inside_bevel))%nat
  /\ (is_in_cube cube_half_width cube_inside_bevel [70; 70; 0] true
      = Returned (Some true)
      <-> 0 <= bevel_radius cube_half_width cube_inside_bevel
          /\ INR (py_sum (np.gt (np.abs [70; 70; 0]) cube_inside_bevel))
             * (excess cube_inside_bevel (Rabs 70)
                * excess cube_inside_bevel (Rabs 70)
                + excess cube_inside_bevel (Rabs 70)
                  * excess cube_inside_bevel (Rabs 70)
                + excess cube_inside_bevel (Rabs 0)
                  * excess cube_inside_bevel (Rabs 0))
             <= bevel_radius cube_half_width cube_inside_bevel
                * bevel_radius cube_half_width cube_inside_bevel).
Proof.
  assert (Hbox : Rmax (Rabs 70) (Rmax (Rabs 70) (Rabs 0)) <= cube_half_width).
  { unfold cube_half_width. repeat apply Rmax_lub; rewrite Rabs_pos_eq; lra. }
  assert (Hk : (2 <= py_sum (np.gt (np.abs [70; 70; 0]%R) cube_inside_bevel))%nat).
  { tests_num. }
  split; [exact Hbox |]. split; [exact Hk |].
  exact (is_in_cube_edge_and_corner_test cube_half_width cube_inside_bevel
           70 70 0 Hbox Hk).
Defined.

(** ** Symmetries of the cube *)

Lemma is_in_cube_swap_first (hw ib x y z : R) (re : bool) :
  is_in_cube hw ib [y; x; z] re = is_in_cube hw ib [x; y; z] re.
Proof.
  assert (Hc : case1 hw (np.abs [y; x; z]) = case1 hw (np.abs [x; y; z])).
  { unfold case1, py_any, np.gt, np.abs; cbn [map existsb].
    destruct (Rgtb (Rabs x) hw), (Rgtb (Rabs y) hw); reflexivity. }
  assert (Hk : py_sum (np.gt (np.abs [y; x; z]) ib)
               = py_sum (np.gt (np.abs [x; y; z]) ib)).
  { unfold np.gt, np.abs; cbn [map py_sum]. lia. }
  destruct re.
  - rewrite !is_in_cube_rounded_form, Hc, Hk. do 6 f_equal. ring.
  - rewrite !is_in_cube_sharp, Hc. reflexivity.
Qed.

Lemma is_in_cube_swap_last (hw ib x y z : R) (re : bool) :
  is_in_cube hw ib [x; z; y] re = is_in_cube hw ib [x; y; z] re.
Proof.
  assert (Hc : case1 hw (np.abs [x; z; y]) = case1 hw (np.abs [x; y; z])).
  { unfold case1, py_any, np.gt, np.abs; cbn [map existsb].
    destruct (Rgtb (Rabs x) hw), (Rgtb (Rabs y) hw), (Rgtb (Rabs z) hw);
      reflexivity. }
  assert (Hk : py_sum (np.gt (np.abs [x; z; y]) ib)
               = py_sum (np.gt (np.abs [x; y; z]) ib)).
  { unfold np.gt, np.abs; cbn [map py_sum]. lia. }
  destruct re.
  - rewrite !is_in_cube_rounded_form, Hc, Hk. do 6 f_equal. ring.
  - rewrite !is_in_cube_sharp, Hc. reflexivity.
Qed.

(** The answer of [is_in_cube] does not depend on the order of the three
    coordinates: each of the five other orderings of a point gets the
    answer of the point. *)
Theorem is_in_cube_coordinate_order (hw ib x y z : R) (re : bool) :
  is_in_cube hw ib [y; x; z] re = is_in_cube hw ib [x; y; z] re
  /\ is_in_cube hw ib [x; z; y] re = is_in_cube hw ib [x; y; z] re
  /\ is_in_cube hw ib [z; y; x] re = is_in_cube hw ib [x; y; z] re
  /\ is_in_cube hw ib [y; z; x] re = is_in_cube hw ib [x; y; z] re
  /\ is_in_cube hw ib [z; x; y] re = is_in_cube hw ib [x; y; z] re.
Proof.
  repeat split.
  - apply is_in_cube_swap_first.
  - apply is_in_cube_swap_last.
  - rewrite (is_in_cube_swap_first hw ib y z x),
      (is_in_cube_swap_last hw ib y x z).
    apply is_in_cube_swap_first.
  - rewrite (is_in_cube_swap_last hw ib y x z).
    apply is_in_cube_swap_first.
  - rewrite (is_in_cube_swap_first hw ib x z y).
    apply is_in_cube_swap_last.
Qed.

(** ** Shrinking a point towards the centre *)

Lemma excess_mono (ib a a' : R) : a' <= a -> excess ib a' <= excess ib a.
Proof.
  intro H. unfold excess.
  destruct (Rgtb a' ib) eqn:E', (Rgtb a ib) eqn:E;
    rewrite ?Rgtb_true, ?Rgtb_false in *; lra.
Qed.

Lemma excess_square_mono (ib a a' : R) :
  a' <= a -> excess ib a' * excess ib a' <= excess ib a * excess ib a.
Proof.
  intro H. pose proof (excess_nonneg ib a').
  pose proof (excess_mono ib a a' H).
  apply Rmult_le_compat; assumption.
Qed.

Lemma over_mono (ib a a' : R) :
  a' <= a ->
  ((if Rgtb a' ib then 1 else 0) <= (if Rgtb a ib then 1 else 0))%nat.
Proof.
  intro H. destruct (Rgtb a' ib) eqn:E', (Rgtb a ib) eqn:E; try lia.
  rewrite ?Rgtb_true, ?Rgtb_false in *. lra.
Qed.

(** With rounded edges, a point whose absolute coordinates are at most
    those of a point inside the cube is inside the cube. *)
Theorem is_in_cube_downward_closed (hw ib x y z x' y' z' : R) :
  Rabs x' <= Rabs x -> Rabs y' <= Rabs y -> Rabs z' <= Rabs z ->
  is_in_cube hw ib [x; y; z] true = Returned (Some true) ->
  is_in_cube hw ib [x'; y'; z'] true = Returned (Some true).
Proof.
  intros Hx Hy Hz H.
  assert (Hk : (py_sum (np.gt (np.abs [x'; y'; z']) ib)
                <= py_sum (np.gt (np.abs [x; y; z]) ib))%nat).
  { unfold np.gt, np.abs; cbn [map py_sum].
    pose proof (over_mono ib _ _ Hx). pose proof (over_mono ib _ _ Hy).
    pose proof (over_mono ib _ _ Hz). lia. }
  rewrite is_in_cube_rounded_form in *.
  remember (py_sum (np.gt (np.abs [x; y; z]) ib)) as k eqn:Ek.
  remember (py_sum (np.gt (np.abs [x'; y'; z']) ib)) as k' eqn:Ek'.
  remember (case1 hw (np.abs [x; y; z])) as c1 eqn:Ec1.
  assert (H' : negb c1
               && ((k <=? 1)%nat
                   || Rleb
                        (sqrt (INR k
                               * (excess ib (Rabs x) * excess ib (Rabs x)
                                  + excess ib (Rabs y) * excess ib (Rabs y)
                                  + excess ib (Rabs z) * excess ib (Rabs z))))
                        (bevel_radius hw ib)) = true) by congruence.
  clear H. apply andb_true_iff in H'. destruct H' as [H1 H2].
  apply negb_true_iff in H1. rewrite H1 in Ec1. symmetry in Ec1.
  apply case1_false_abs in Ec1. destruct Ec1 as (Bx & By & Bz).
  assert (H1' : case1 hw (np.abs [x'; y'; z']) = false).
  { apply case1_false_abs. repeat split; lra. }
  rewrite H1'. cbn [negb andb]. do 2 f_equal.
  destruct (Nat.leb_spec k' 1) as [Hs | Hs]; [reflexivity |].
  cbn [orb].
  destruct (Nat.leb_spec k 1) as [Hb | Hb]; [lia |].
  cbn [orb] in H2. apply Rleb_true in H2. apply Rleb_true.
  eapply Rle_trans; [| exact H2]. apply sqrt_le_1_alt.
  apply Rmult_le_compat.
  - apply pos_INR.
  - apply excess_squares_nonneg.
  - now apply le_INR.
  - pose proof (excess_square_mono ib _ _ Hx).
    pose proof (excess_square_mono ib _ _ Hy).
    pose proof (excess_square_mono ib _ _ Hz). lra.
Qed.

Lemma is_in_cube_downward_closed_at_70 :
  Rabs 68 <= Rabs 70 /\ Rabs 0 <= Rabs 70 /\ Rabs 0 <= Rabs 0
  /\ is_in_cube cube_half_width cube_inside_bevel [70; 70; 0] true
     = Returned (Some true)
  /\ is_in_cube cube_half_width cube_inside_bevel [68; 0; 0] true
     = Returned (Some true).
Proof.
  assert (Hx : Rabs 68 <= Rabs 70) by (rewrite !Rabs_pos_eq; lra).
  assert (Hy : Rabs 0 <= Rabs 70) by (rewrite !Rabs_pos_eq; lra).
  assert (Hz : Rabs 0 <= Rabs 0) by lra.
  assert (H : is_in_cube cube_half_width cube_inside_bevel [70; 70; 0] true
              = Returned (Some true)) by region_num.
  split; [exact Hx |]. split; [exact Hy |]. split; [exact Hz |].
  split; [exact H |].
  exact (is_in_cube_downward_closed cube_half_width cube_inside_bevel
           70 70 0 68 0 0 Hx Hy Hz H).
Defined.

(** ** The bevel radius and the two modes *)

(** When the bevel radius is zero or negative, [rounded_edges] makes no
    difference: both modes give the bounding-box test. *)
Theorem modes_agree_without_bevel (hw ib x y z : R) :
  bevel_radius hw ib <= 0 ->
  is_in_cube hw ib [x; y; z] true = is_in_cube hw ib [x; y; z] false.
Proof.
  unfold bevel_radius. intro Hr.
  rewrite is_in_cube_sharp.
  destruct (case1 hw (np.abs [x; y; z])) eqn:H1.
  - now apply is_in_cube_outside.
  - apply is_in_cube_face_or_interior; [exact H1 |].
    apply case1_false_abs in H1. destruct H1 as (Bx & By & Bz).
    unfold np.gt, np.abs. cbn [map py_sum].
    replace (Rgtb (Rabs x) ib) with false
      by (symmetry; apply Rgtb_false; lra).
    replace (Rgtb (Rabs y) ib) with false
      by (symmetry; apply Rgtb_false; lra).
    replace (Rgtb (Rabs z) ib) with false
      by (symmetry; apply Rgtb_false; lra).
    cbn [Nat.add]. lia.
Qed.

Lemma modes_agree_for_half_width_75_boundary_75 :
  bevel_radius 75 75 <= 0
  /\ is_in_cube 75 75 [75; 75; 75] true = is_in_cube 75 75 [75; 75; 75] false.
Proof.
  assert (H : bevel_radius 75 75 <= 0) by (unfold bevel_radius; lra).
  split; [exact H |].
  exact (modes_agree_without_bevel 75 75 75 75 75 H).
Defined.

(** When the bevel radius is positive, rounding removes the vertices of
    the cube: the vertex [(w, w, w)] of a cube of half-width [w >= 0] is
    inside without rounded edges and outside with them. *)
Theorem rounding_removes_the_vertex (hw ib : R) :
  0 <= hw -> ib < hw ->
  is_in_cube hw ib [hw; hw; hw] false = Returned (Some true)
  /\ is_in_cube hw ib [hw; hw; hw] true = Returned (Some false).
Proof.
  intros H0 Hlt.
  assert (H1 : case1 hw (np.abs [hw; hw; hw]) = false).
  { apply case1_false_abs. rewrite Rabs_pos_eq by lra. lra. }
  split.
  - rewrite is_in_cube_sharp, H1. reflexivity.
  - assert (Hg : Rgtb hw ib = true) by (apply Rgtb_true; lra).
    rewrite is_in_cube_rounded_region; [| exact H1 |].
    + do 2 f_equal. unfold np.gt, np.abs, excess, bevel_radius.
      cbn [map py_sum]. rewrite !Rabs_pos_eq by lra. rewrite Hg.
      cbn [Nat.add INR].
      rewrite Rleb_sqrt by nra. apply Rleb_false. nra.
    + unfold np.gt, np.abs. cbn [map py_sum].
      rewrite !Rabs_pos_eq by lra. rewrite Hg. cbn. lia.
Qed.

Lemma rounding_removes_the_shipped_vertex :
  0 <= cube_half_width /\ cube_inside_bevel < cube_half_width
  /\ is_in_cube cube_half_width cube_inside_bevel
       [cube_half_width; cube_half_width; cube_half_width] false
     = Returned (Some true)
  /\ is_in_cube cube_half_width cube_inside_bevel
       [cube_half_width; cube_half_width; cube_half_width] true
     = Returned (Some false).
Proof.
  assert (H0 : 0 <= cube_half_width) by (unfold cube_half_width; lra).
  assert (H1 : cube_inside_bevel < cube_half_width)
    by (unfold cube_inside_bevel, cube_half_width; lra).
  split; [exact H0 |]. split; [exact H1 |].
  exact (rounding_removes_the_vertex cube_half_width cube_inside_bevel H0 H1).
Defined.

(** ** The order of the spheres *)

Lemma is_in_sphere_loop_permutation (d : R) (loc : list R)
  (cs cs' : list center) :
  Permutation cs cs' ->
  is_in_sphere_loop d loc cs = is_in_sphere_loop d loc cs'.
Proof.
  induction 1 as [| c cs cs' _ IH | c c' cs | cs cs' cs'' _ IH1 _ IH2].
  - reflexivity.
  - cbn. now rewrite IH.
  - cbn. destruct (Rleb (np.norm (np.sub loc (row c))) (d / 2)),
      (Rleb (np.norm (np.sub loc (row c'))) (d / 2)); reflexivity.
  - now rewrite IH1.
Qed.

(** The early [return True] of the loop does not make the answer of
    [is_in_sphere] depend on the order of [sphere_centers]. *)
Theorem is_in_sphere_order_of_spheres (d : R) (cs cs' : list center)
  (loc : list R) :
  Permutation cs cs' -> is_in_sphere d cs loc = is_in_sphere d cs' loc.
Proof.
  intro H. unfold is_in_sphere.
  now rewrite (is_in_sphere_loop_permutation d loc cs cs' H).
Qed.

Lemma is_in_sphere_order_of_two_spheres :
  Permutation [(0, 0, 0); (10, -15, -15)] [(10, -15, -15); (0, 0, 0)]
  /\ is_in_sphere sphere_diameter [(0, 0, 0); (10, -15, -15)] [1; 1; 1]
     = is_in_sphere sphere_diameter [(10, -15, -15); (0, 0, 0)] [1; 1; 1].
Proof.
  assert (H : Permutation [(0, 0, 0); (10, -15, -15)]
                [(10, -15, -15); (0, 0, 0)]) by apply perm_swap.
  split; [exact H |].
  exact (is_in_sphere_order_of_spheres sphere_diameter _ _ [1; 1; 1] H).
Defined.

(** ** The grid of [is_in_sphere_np] *)

Lemma get_meshgrid_first (x y z : list R) (i j k : nat) :
  np.get (fst (fst (np.meshgrid x y z))) i j k
  = match nth_error x i, nth_error y j, nth_error z k with
    | Some xi, Some _, Some _ => Some xi
    | _, _, _ => None
    end.
Proof.
  unfold np.meshgrid, np.get. cbn [fst snd]. rewrite nth_error_map.
  destruct (nth_error x i); cbn [option_map]; [| reflexivity].
  rewrite nth_error_map.
  destruct (nth_error y j); cbn [option_map]; [| reflexivity].
  rewrite nth_error_map. now destruct (nth_error z k).
Qed.

Lemma get_sphere_step_none (d : R) (XX YY ZZ : np.volume R)
  (acc : np.volume bool) (c : center) (i j k : nat) :
  np.get XX i j k = None ->
  np.get (sphere_step d XX YY ZZ acc c) i j k = None.
Proof.
  intro HX. destruct c as [[o0 o1] o2].
  unfold sphere_step, np.logical_or, np.vle, np.vadd, np.square, np.vsub.
  rewrite get_vmap2, get_vmap, !get_vmap2, !get_vmap, HX. reflexivity.
Qed.

Lemma get_sphere_loop_none (d : R) (XX YY ZZ : np.volume R)
  (cs : list center) (i j k : nat) :
  np.get XX i j k = None ->
  forall acc : np.volume bool,
    np.get acc i j k = None ->
    np.get (fold_left (sphere_step d XX YY ZZ) cs acc) i j k = None.
Proof.
  intro HX. induction cs as [| c cs IH]; intros acc Hacc; [exact Hacc |].
  cbn [fold_left]. apply IH. now apply get_sphere_step_none.
Qed.

(** The array [is_in_sphere_np] returns has the shape of the grid: it has
    an entry at [(i, j, k)] exactly when [i < len x], [j < len y] and
    [k < len z], for any spheres (none included). *)
Theorem is_in_sphere_np_shape (d : R) (cs : list center) (x y z : list R)
  (i j k : nat) :
  (exists b : bool, np.get (is_in_sphere_np d cs x y z) i j k = Some b)
  <-> (i < length x)%nat /\ (j < length y)%nat /\ (k < length z)%nat.
Proof.
  split.
  - intros [b Hb].
    destruct (nth_error x i) as [xi |] eqn:Hx,
      (nth_error y j) as [yj |] eqn:Hy, (nth_error z k) as [zk |] eqn:Hz;
      try (repeat split; apply nth_error_Some; congruence);
      exfalso;
      pose proof (get_meshgrid_first x y z i j k) as HX;
      rewrite ?Hx, ?Hy, ?Hz in HX; cbv beta iota in HX;
      unfold is_in_sphere_np in Hb;
      destruct (np.meshgrid x y z) as [[XX YY] ZZ]; cbn [fst snd] in HX;
      rewrite (get_sphere_loop_none d XX YY ZZ cs i j k HX) in Hb;
      try discriminate Hb;
      unfold np.zeros_like; rewrite get_vmap, HX; reflexivity.
  - intros (Hi & Hj & Hk). eexists.
    apply (is_in_sphere_np_get d cs x y z i j k
             (nth i x 0) (nth j y 0) (nth k z 0));
      now apply nth_error_nth'.
Qed.

(** At a grid point, the entry of [is_in_sphere_np] is [True] exactly when
    some sphere centre lies at squared distance at most
    [(sphere_diameter / 2) ** 2], for any diameter. *)
Theorem is_in_sphere_np_entry (d : R) (cs : list center) (x y z : list R)
  (i j k : nat) :
  (i < length x)%nat -> (j < length y)%nat -> (k < length z)%nat ->
  (np.get (is_in_sphere_np d cs x y z) i j k = Some true
   <-> exists c : center,
         In c cs
         /\ sqdist (nth i x 0, nth j y 0, nth k z 0) c <= (d / 2) ^ 2)
  /\ (np.get (is_in_sphere_np d cs x y z) i j k = Some false
      <-> ~ exists c : center,
              In c cs
              /\ sqdist (nth i x 0, nth j y 0, nth k z 0) c <= (d / 2) ^ 2).
Proof.
  intros Hi Hj Hk.
  rewrite (is_in_sphere_np_get d cs x y z i j k
             (nth i x 0) (nth j y 0) (nth k z 0))
    by now apply nth_error_nth'.
  assert (Hex :
    existsb (fun c => Rleb (sqdist (nth i x 0, nth j y 0, nth k z 0) c)
                        ((d / 2) ^ 2)) cs = true
    <-> exists c : center,
          In c cs
          /\ sqdist (nth i x 0, nth j y 0, nth k z 0) c <= (d / 2) ^ 2).
  { rewrite existsb_exists. split; intros (c & Hin & Hc); exists c;
      (split; [exact Hin | apply Rleb_true, Hc]). }
  destruct (existsb _ cs); split; split; intro H;
    try reflexivity; try discriminate.
  - apply Hex. reflexivity.
  - exfalso. apply H, Hex. reflexivity.
  - apply Hex in H. discriminate.
  - intro K. apply Hex in K. discriminate.
Qed.

Lemma is_in_sphere_np_entry_at_origin :
  lt 0 (length [0]) /\ lt 0 (length [0]) /\ lt 0 (length [0])
  /\ (np.get (is_in_sphere_np sphere_diameter sphere_centers [0] [0] [0])
        0 0 0 = Some true
      <-> exists c : center,
            In c sphere_centers
            /\ sqdist (nth 0 [0] 0, nth 0 [0] 0, nth 0 [0] 0) c
               <= (sphere_diameter / 2) ^ 2).
Proof.
  assert (H : lt 0 (length [0])) by (cbn; lia).
  split; [exact H |]. split; [exact H |]. split; [exact H |].
  exact (proj1 (is_in_sphere_np_entry sphere_diameter sphere_centers
                  [0] [0] [0] 0 0 0 H H H)).
Defined.

(** For a non-negative diameter and any list of centres, the entry of
    [is_in_sphere_np] at a grid point is the answer of [is_in_sphere] at
    that point. *)
Theorem sphere_paths_agree_for_any_spheres (d : R) (cs : list center)
  (x y z : list R) (i j k : nat) :
  0 <= d ->
  (i < length x)%nat -> (j < length y)%nat -> (k < length z)%nat ->
  option_map Returned (np.get (is_in_sphere_np d cs x y z) i j k)
  = Some (is_in_sphere d cs [nth i x 0; nth j y 0; nth k z 0]).
Proof.
  intros Hd Hi Hj Hk.
  apply sphere_paths_agree; [exact Hd | now apply nth_error_nth' ..].
Qed.

Lemma sphere_paths_agree_for_one_sphere :
  0 <= 2 /\ lt 0 (length [1]) /\ lt 0 (length [1]) /\ lt 0 (length [1])
  /\ option_map Returned
       (np.get (is_in_sphere_np 2 [(1, 1, 1)] [1] [1] [1]) 0 0 0)
     = Some (is_in_sphere 2 [(1, 1, 1)]
               [nth 0 [1] 0; nth 0 [1] 0; nth 0 [1] 0]).
Proof.
  assert (Hd : 0 <= 2) by lra.
  assert (H : lt 0 (length [1])) by (cbn; lia).
  split; [exact Hd |]. split; [exact H |]. split; [exact H |].
  split; [exact H |].
  exact (sphere_paths_agree_for_any_spheres 2 [(1, 1, 1)] [1] [1] [1]
           0 0 0 Hd H H H).
Defined.

(** For a negative diameter the two paths differ at every grid point that
    is a sphere centre: [is_in_sphere] compares a norm with a negative
    number and answers [False], [is_in_sphere_np] compares with the square
    and answers [True]. *)
Theorem sphere_paths_differ_for_negative_diameter (d : R) (cs : list center)
  (x y z : list R) (i j k : nat) :
  d < 0 ->
  (i < length x)%nat -> (j < length y)%nat -> (k < length z)%nat ->
  In (nth i x 0, nth j y 0, nth k z 0) cs ->
  is_in_sphere d cs [nth i x 0; nth j y 0; nth k z 0] = Returned false
  /\ np.get (is_in_sphere_np d cs x y z) i j k = Some true.
Proof.
  intros Hd Hi Hj Hk Hin. split.
  - rewrite is_in_sphere_three. f_equal.
    destruct (existsb _ cs) eqn:E; [| reflexivity].
    apply existsb_exists in E. destruct E as (c & _ & Hc).
    apply Rleb_true in Hc. unfold distance in Hc.
    pose proof (sqrt_pos (sqdist (nth i x 0, nth j y 0, nth k z 0) c)). lra.
  - rewrite (is_in_sphere_np_get d cs x y z i j k
               (nth i x 0) (nth j y 0) (nth k z 0))
      by now apply nth_error_nth'.
    f_equal. apply existsb_exists.
    exists (nth i x 0, nth j y 0, nth k z 0). split; [exact Hin |].
    apply Rleb_true. unfold sqdist. nra.
Qed.

Lemma sphere_paths_differ_for_diameter_minus_2 :
  -2 < 0 /\ lt 0 (length [1]) /\ lt 0 (length [1]) /\ lt 0 (length [1])
  /\ In (nth 0 [1] 0, nth 0 [1] 0, nth 0 [1] 0) [(1, 1, 1)]
  /\ is_in_sphere (-2) [(1, 1, 1)] [nth 0 [1] 0; nth 0 [1] 0; nth 0 [1] 0]
     = Returned false
  /\ np.get (is_in_sphere_np (-2) [(1, 1, 1)] [1] [1] [1]) 0 0 0 = Some true.
Proof.
  assert (Hd : -2 < 0) by lra.
  assert (H : lt 0 (length [1])) by (cbn; lia).
  assert (Hin : In (nth 0 [1] 0, nth 0 [1] 0, nth 0 [1] 0) [(1, 1, 1)])
    by (left; reflexivity).
  split; [exact Hd |]. split; [exact H |]. split; [exact H |].
  split; [exact H |]. split; [exact Hin |].
  exact (sphere_paths_differ_for_negative_diameter (-2) [(1, 1, 1)]
           [1] [1] [1] 0 0 0 Hd H H H Hin).
Defined.

(** ** The shipped spheres and the shipped cube *)

Lemma Rabs_le_between (u r : R) : Rabs u <= r <-> - r <= u <= r.
Proof.
  unfold Rabs. destruct (Rcase_abs u); split; intro H; lra.
Qed.

(** A point within distance [r] of a centre is within [r] of it along
    each axis. *)
Lemma within_box (x y z cx cy cz r : R) :
  distance (x, y, z) (cx, cy, cz) <= r ->
  - r <= x - cx <= r /\ - r <= y - cy <= r /\ - r <= z - cz <= r.
Proof.
  unfold distance. intro H.
  apply sqrt_le_iff_nonneg in H; [| apply sqdist_nonneg].
  destruct H as [Hr H]. unfold sqdist in H.
  pose proof (Rle_0_sqr (x - cx)) as Sx. pose proof (Rle_0_sqr (y - cy)) as Sy.
  pose proof (Rle_0_sqr (z - cz)) as Sz. unfold Rsqr in Sx, Sy, Sz.
  repeat split; nra.
Qed.

Lemma is_in_cube_inner (hw ib x y z : R) (re : bool) :
  Rabs x <= hw -> Rabs y <= hw -> Rabs z <= hw ->
  Rabs x <= ib -> Rabs y <= ib -> Rabs z <= ib ->
  is_in_cube hw ib [x; y; z] re = Returned (Some true).
Proof.
  intros Bx By Bz Ix Iy Iz.
  assert (H1 : case1 hw (np.abs [x; y; z]) = false)
    by (apply case1_false_abs; auto).
  destruct re; [| rewrite is_in_cube_sharp, H1; reflexivity].
  apply is_in_cube_face_or_interior; [exact H1 |].
  unfold np.gt, np.abs. cbn [map py_sum].
  replace (Rgtb (Rabs x) ib) with false by (symmetry; now apply Rgtb_false).
  replace (Rgtb (Rabs y) ib) with false by (symmetry; now apply Rgtb_false).
  replace (Rgtb (Rabs z) ib) with false by (symmetry; now apply Rgtb_false).
  cbn [Nat.add]. lia.
Qed.

(** Take a sphere of the shipped list that contains a point, with the
    bounds that gives on the coordinates of the point. *)
Ltac shipped_sphere H c :=
  apply existsb_exists in H; destruct H as (c & Hin & Hc);
  apply Rleb_true in Hc; unfold sphere_centers in Hin; cbn [In] in Hin;
  repeat (destruct Hin as [Hin | Hin]); try contradiction; subst c;
  apply within_box in Hc; unfold sphere_diameter in Hc.

(** Every shipped sphere lies inside the shipped cube: a point for which
    [is_in_sphere] answers [True] gets [True] from [is_in_cube], with or
    without rounded edges. *)
Theorem shipped_spheres_lie_in_the_cube (x y z : R) (re : bool) :
  is_in_sphere sphere_diameter sphere_centers [x; y; z] = Returned true ->
  is_in_cube cube_half_width cube_inside_bevel [x; y; z] re
  = Returned (Some true).
Proof.
  rewrite is_in_sphere_three. intro H.
  match type of H with
  | Returned ?b = _ => assert (E : b = true) by congruence
  end.
  clear H. shipped_sphere E c;
    apply is_in_cube_inner; unfold cube_half_width, cube_inside_bevel;
    apply Rabs_le_between; lra.
Qed.

Lemma origin_is_in_a_shipped_sphere :
  is_in_sphere sphere_diameter sphere_centers [0; 0; 0] = Returned true.
Proof.
  rewrite is_in_sphere_three. f_equal. apply existsb_exists.
  exists (0, 0, 0). split; [unfold sphere_centers; cbn; tauto |].
  apply Rleb_true. unfold distance, sqdist, sphere_diameter.
  apply sqrt_le_iff; lra.
Defined.

Lemma shipped_spheres_lie_in_the_cube_at_origin :
  is_in_sphere sphere_diameter sphere_centers [0; 0; 0] = Returned true
  /\ is_in_cube cube_half_width cube_inside_bevel [0; 0; 0] true
     = Returned (Some true).
Proof.
  split; [exact origin_is_in_a_shipped_sphere |].
  exact (shipped_spheres_lie_in_the_cube 0 0 0 true
           origin_is_in_a_shipped_sphere).
Defined.

(** The shipped spheres are pairwise disjoint: a point lies within
    [sphere_diameter / 2] of at most one of the shipped centres, so the
    sphere at which the loop of [is_in_sphere] returns is the only one that
    contains the point. *)
Theorem shipped_spheres_are_disjoint (x y z : R) (c1 c2 : center) :
  In c1 sphere_centers -> In c2 sphere_centers ->
  distance (x, y, z) c1 <= sphere_diameter / 2 ->
  distance (x, y, z) c2 <= sphere_diameter / 2 ->
  c1 = c2.
Proof.
  unfold sphere_centers. cbn [In]. intros H1 H2 D1 D2.
  repeat (destruct H1 as [H1 | H1]); try contradiction; subst c1;
    repeat (destruct H2 as [H2 | H2]); try contradiction; subst c2;
    try reflexivity; exfalso;
    apply within_box in D1; apply within_box in D2;
    unfold sphere_diameter in D1, D2; lra.
Qed.

Lemma shipped_spheres_are_disjoint_at_origin :
  In (0, 0, 0) sphere_centers /\ In (0, 0, 0) sphere_centers
  /\ distance (1, 1, 1) (0, 0, 0) <= sphere_diameter / 2
  /\ (0, 0, 0) = (0, 0, 0) :> center.
Proof.
  assert (Hin : In (0, 0, 0) sphere_centers)
    by (unfold sphere_centers; cbn; tauto).
  assert (Hd : distance (1, 1, 1) (0, 0, 0) <= sphere_diameter / 2).
  { unfold distance, sqdist, sphere_diameter. apply sqrt_le_iff; lra. }
  split; [exact Hin |]. split; [exact Hin |]. split; [exact Hd |].
  exact (shipped_spheres_are_disjoint 1 1 1 (0, 0, 0) (0, 0, 0)
           Hin Hin Hd Hd).
Defined.

(** ** The sampling grid *)

Lemma nth_image_positions (n : nat) (L : R) (i : nat) :
  (i < n)%nat ->
  nth i (image_positions n L) 0
  = INR i * image_pixel_size n L + image_pixel_size n L / 2 - L / 2.
Proof.
  intro Hi. unfold image_positions, np.ssub, np.sadd, np.smul, np.arange.
  rewrite !map_map.
  rewrite (nth_indep _ 0
             (INR 0 * image_pixel_size n L + image_pixel_size n L / 2 - L / 2))
    by (rewrite length_map, length_seq; exact Hi).
  rewrite (map_nth
             (fun m => INR m * image_pixel_size n L
                       + image_pixel_size n L / 2 - L / 2)).
  now rewrite seq_nth.
Qed.

Lemma length_image_positions (n : nat) (L : R) :
  length (image_positions n L) = n.
Proof.
  unfold image_positions, np.ssub, np.sadd, np.smul, np.arange.
  now rewrite !length_map, length_seq.
Qed.

Lemma pixels_fill_the_size (n : nat) (L : R) :
  (0 < n)%nat -> INR n * image_pixel_size n L = L.
Proof.
  intro Hn. unfold image_pixel_size. field. apply not_0_INR. lia.
Qed.

Lemma mirrored_index (n i : nat) :
  (i < n)%nat -> INR (n - 1 - i) = INR n - 1 - INR i.
Proof. intro Hi. rewrite !minus_INR by lia. reflexivity. Qed.



Lemma image_positions_ends (n : nat) (L : R) :
  (0 < n)%nat ->
  nth 0 (image_positions n L) 0 - image_pixel_size n L / 2 = - (L / 2)
  /\ nth (n - 1) (image_positions n L) 0 + image_pixel_size n L / 2 = L / 2.
Proof.
  intro Hn. rewrite !nth_image_positions by lia.
  replace (n - 1)%nat with (n - 1 - 0)%nat by lia.
  rewrite (mirrored_index n 0 Hn).
  pose proof (pixels_fill_the_size n L Hn) as Hw. cbn [INR]. split; lra.
Qed.

(** The in-plane positions are centred on the origin: the position at
    index [n - 1 - i] is the opposite of the position at index [i]. *)
Theorem image_positions_are_centred (n : nat) (L : R) (i : nat) :
  (i < n)%nat ->
  nth (n - 1 - i) (image_positions n L) 0 = - nth i (image_positions n L) 0.
Proof.
  intro Hi. rewrite !nth_image_positions by lia.
  rewrite (mirrored_index n i Hi).
  assert (Hn : (0 < n)%nat) by lia.
  pose proof (pixels_fill_the_size n L Hn) as Hw.
  lra.
Qed.

Lemma image_positions_are_centred_at_0 :
  lt 0 image_matrix_size
  /\ nth (image_matrix_size - 1 - 0)
       (image_positions image_matrix_size image_physical_size) 0
     = - nth 0 (image_positions image_matrix_size image_physical_size) 0.
Proof.
  assert (H : lt 0 image_matrix_size) by (unfold image_matrix_size; lia).
  split; [exact H |].
  exact (image_positions_are_centred image_matrix_size image_physical_size
           0 H).
Defined.

(** Consecutive in-plane positions are one pixel size apart. *)
Theorem image_positions_are_evenly_spaced (n : nat) (L : R) (i : nat) :
  (S i < n)%nat ->
  nth (S i) (image_positions n L) 0 - nth i (image_positions n L) 0
  = image_pixel_size n L.
Proof.
  intro Hi.
  rewrite (nth_image_positions n L (S i)) by exact Hi.
  rewrite (nth_image_positions n L i) by lia.
  rewrite S_INR. ring.
Qed.

Lemma image_positions_are_evenly_spaced_at_0 :
  lt 1 image_matrix_size
  /\ nth 1 (image_positions image_matrix_size image_physical_size) 0
     - nth 0 (image_positions image_matrix_size image_physical_size) 0
     = image_pixel_size image_matrix_size image_physical_size.
Proof.
  assert (H : lt 1 image_matrix_size) by (unfold image_matrix_size; lia).
  split; [exact H |].
  exact (image_positions_are_evenly_spaced image_matrix_size
           image_physical_size 0 H).
Defined.

(** The pixels tile the physical size: there are [image_matrix_size]
    positions, the first pixel starts at [- image_physical_size / 2] and
    the last one ends at [image_physical_size / 2]. *)
Theorem image_positions_span_the_size (n : nat) (L : R) :
  (0 < n)%nat ->
  length (image_positions n L) = n
  /\ nth 0 (image_positions n L) 0 - image_pixel_size n L / 2 = - (L / 2)
  /\ nth (n - 1) (image_positions n L) 0 + image_pixel_size n L / 2 = L / 2.
Proof.
  intro Hn. split; [apply length_image_positions |].
  now apply image_positions_ends.
Qed.

Lemma image_positions_span_the_shipped_size :
  lt 0 image_matrix_size
  /\ length (image_positions image_matrix_size image_physical_size)
     = image_matrix_size
  /\ nth 0 (image_positions image_matrix_size image_physical_size) 0
     - image_pixel_size image_matrix_size image_physical_size / 2
     = - (image_physical_size / 2)
  /\ nth (image_matrix_size - 1)
       (image_positions image_matrix_size image_physical_size) 0
     + image_pixel_size image_matrix_size image_physical_size / 2
     = image_physical_size / 2.
Proof.
  assert (H : lt 0 image_matrix_size) by (unfold image_matrix_size; lia).
  split; [exact H |].
  exact (image_positions_span_the_size image_matrix_size image_physical_size H).
Defined.

(** For a positive physical size every in-plane position lies strictly
    inside the physical extent. *)
Theorem image_positions_lie_in_the_extent (n : nat) (L : R) (i : nat) :
  0 < L -> (i < n)%nat ->
  - (L / 2) < nth i (image_positions n L) 0 < L / 2.
Proof.
  intros HL Hi. rewrite nth_image_positions by exact Hi.
  pose proof (pixels_fill_the_size n L ltac:(lia)) as Hw.
  assert (Hn : 0 < INR n) by (apply lt_0_INR; lia).
  assert (Hp : 0 < image_pixel_size n L).
  { unfold image_pixel_size. now apply Rdiv_lt_0_compat. }
  pose proof (pos_INR i) as H0.
  assert (H1 : INR i + 1 <= INR n).
  { rewrite <- S_INR. apply le_INR. lia. }
  split; nra.
Qed.

Lemma image_positions_lie_in_the_shipped_extent :
  0 < image_physical_size /\ lt 0 image_matrix_size
  /\ - (image_physical_size / 2)
     < nth 0 (image_positions image_matrix_size image_physical_size) 0
     < image_physical_size / 2.
Proof.
  assert (HL : 0 < image_physical_size) by (unfold image_physical_size; lra).
  assert (H : lt 0 image_matrix_size) by (unfold image_matrix_size; lia).
  split; [exact HL |]. split; [exact H |].
  exact (image_positions_lie_in_the_extent image_matrix_size
           image_physical_size 0 HL H).
Defined.


